(** * p5: shape construction and the nanovg renderer

    A shallow embedding of the parts of [p5/core/primitives.py],
    [p5/sketch/renderer.py], [p5/sketch/base.py] and [p5/core/attribs.py]
    that build shapes and draw them.

    Numbers are rationals [Q].  A Python tuple or [Point] is the list of
    its components, so that tuple unpacking ([x, y = seq]) is modelled
    with its arity check.  Drawing is a writer of vector canvas commands
    ([vg.*] calls) combined with Python exceptions. *)

From Stdlib Require Import QArith List String Ascii Bool Lia.
Import ListNotations.
Set Warnings "-register-all".

(** ** Python exceptions *)

Inductive exn : Type :=
| ValueError (msg : string)
| TypeError (msg : string)
| IndexError (msg : string)
| NameError (msg : string)
| ZeroDivisionError (msg : string).

(** ** The vector canvas: the [vg] calls of the renderer *)

Module Vg.
Inductive cmd : Type :=
| shapeAntiAlias (on : Z)
| beginPath
| save
| restore
| transform (a b c d e f : Q)
| rect (x y w h : Q)
| moveTo (x y : Q)
| lineTo (x y : Q)
| arc (cx cy r a0 a1 : Q) (dir : Z)
| ellipse (cx cy rx ry : Q)
| bezierTo (c1x c1y c2x c2y x y : Q)
| closePath
| lineCap (cap : Z)
| lineJoin (join : Z)
| strokeWidth (w : Q)
| fillColor (r g b a : Q)
| fill
| strokeColor (r g b a : Q)
| stroke.
End Vg.

(** ** Drawing computations: canvas commands emitted, then a value or
    the exception that stopped the computation. *)

Definition M (A : Type) : Type := (list Vg.cmd * (exn + A))%type.

Definition ret {A} (a : A) : M A := ([], inr a).
Definition raise {A} (e : exn) : M A := ([], inl e).
Definition emit (c : Vg.cmd) : M unit := ([c], inr tt).

Definition bind {A B} (m : M A) (k : A -> M B) : M B :=
  match m with
  | (l, inl e) => (l, inl e)
  | (l, inr a) => let (l', r) := k a in (l ++ l', r)
  end.

Notation "x <- m ;; k" := (bind m (fun x => k))
  (at level 61, m at next level, right associativity).
Notation "m ;; k" := (bind m (fun _ => k)) (at level 61, right associativity).

(** Python's true division [a / b], raising on a zero divisor. *)
Definition py_div (a b : Q) : M Q :=
  if Qeq_bool b 0 then raise (ZeroDivisionError "division by zero")
  else ret (a / b).

(** Unpacking a sequence into two or three names. *)
Definition unpack_error (expected got : nat) : exn :=
  if Nat.ltb expected got then ValueError "too many values to unpack"
  else ValueError "not enough values to unpack".

Definition unpack2 (l : list Q) : M (Q * Q) :=
  match l with
  | [x; y] => ret (x, y)
  | _ => raise (unpack_error 2 (List.length l))
  end.

Definition unpack3 (l : list Q) : M (Q * Q * Q) :=
  match l with
  | [x; y; z] => ret (x, y, z)
  | _ => raise (unpack_error 3 (List.length l))
  end.

(** A Python value passed in [*args]: a number or a sequence of numbers. *)
Inductive pyval : Type :=
| PNum (q : Q)
| PSeq (l : list Q).

Definition as_num (v : pyval) : M Q :=
  match v with
  | PNum q => ret q
  | PSeq _ => raise (TypeError "unsupported operand type(s)")
  end.

(** ** [p5.pmath.Point] *)

Module Pmath.

Record point : Type := mkPoint { x : Q; y : Q; z : Q }.

(** Modelled from the spec: [p5.pmath.Point] (not in this tree), the
    (x, y, z) triple.  [Point(x, y)] takes z = 0 and, like the renderer's
    [cx, cy, _ = shape._center] and [rx, ry, _ = shape._radii] on
    [Point(width, height)] assume, iterates over its three components. *)
Definition Point (args : list Q) : M point :=
  match args with
  | [a; b] => ret (mkPoint a b 0)
  | [a; b; c] => ret (mkPoint a b c)
  | _ => raise (TypeError "Point takes 2 or 3 arguments")
  end.

Definition seq_of (p : point) : list Q := [x p; y p; z p].

End Pmath.

(** ** Normalized colors *)

(** Modelled from the spec: [Color.normalized] (p5/core/color.py, not in
    this tree), the color's RGBA channels in the 0-1 range. *)
Record color : Type := mkColor { red : Q; green : Q; blue : Q; alpha : Q }.

(** ** Shapes: [PShape] and its subclasses [Arc], [Ellipse], [Rect],
    [Bezier] of primitives.py. *)

Module PShape.

(** The Python class of a shape together with the fields that class adds. *)
Inductive geometry : Type :=
| GPShape (vertices : list (list Q))
| GArc (center radii : list Q) (start_angle stop_angle : Q)
| GEllipse (center : list Q) (width height : Q)
| GRect (center : list Q) (width height : Q)
| GBezier (start control_point_1 control_point_2 stop : list Q).

(** Modelled from the spec: the fields of [PShape] (p5/core/shape.py, not
    in this tree) the renderer reads: a 4x4 matrix (list of rows), the set
    of attribute tags, stroke style, the kind tag, the optional fill and
    stroke colors and the ordered children. *)
Inductive shape : Type := mkShape {
  geom : geometry;
  matrix : list (list Q);
  attribs : list string;
  stroke_cap : string;
  stroke_join : string;
  stroke_weight : Q;
  kind : string;
  fill : option color;
  stroke : option color;
  children : list shape
}.

(** Modelled from the spec: [attr in shape.attribs], membership in the
    set of attribute tags. *)
Definition has_attrib (s : shape) (a : string) : bool :=
  existsb (String.eqb a) (attribs s).

(** [shape._matrix[i][j]] on the 4x4 matrix. *)
Definition entry (s : shape) (i j : nat) : Q := nth j (nth i (matrix s) []) 0.

(** Modelled from the spec: the style snapshot [PShape.__init__] takes
    from the current renderer state when a shape is created. *)
Record defaults : Type := mkDefaults {
  d_matrix : list (list Q);
  d_attribs : list string;
  d_stroke_cap : string;
  d_stroke_join : string;
  d_stroke_weight : Q;
  d_kind : string;
  d_fill : option color;
  d_stroke : option color
}.

(** [PShape(vertices, attribs=...)] and the subclass constructors: a new
    shape with no children.  [attribs = None] keeps the default tags. *)
Definition make (d : defaults) (g : geometry) (attrs : option (list string))
  : shape :=
  mkShape g (d_matrix d)
    (match attrs with Some a => a | None => d_attribs d end)
    (d_stroke_cap d) (d_stroke_join d) (d_stroke_weight d)
    (d_kind d) (d_fill d) (d_stroke d) [].

End PShape.

(** ** The renderer: [p5/sketch/renderer.py] *)

Module Renderer.

(** The renderer globals that the style setters write. *)
Record state : Type := mkState {
  fill_color : color;
  fill_enabled : bool;
  stroke_color : color;
  stroke_enabled : bool;
  stroke_weight : Q;
  stroke_cap : string;
  stroke_join : string;
  smooth : bool;
  tint_color : color;
  tint_enabled : bool
}.

(** The walk over [shape.vertices]: [moveTo] for the first, [lineTo]
    for the others; each vertex is unpacked as [x, y]. *)
Fixpoint walk_vertices (i : nat) (vs : list (list Q)) : M unit :=
  match vs with
  | [] => ret tt
  | v :: vs' =>
      xy <- unpack2 v ;;
      (if Nat.eqb i 0 then emit (Vg.moveTo (fst xy) (snd xy))
       else emit (Vg.lineTo (fst xy) (snd xy))) ;;
      walk_vertices (S i) vs'
  end.

(** The [if type(shape) is ...] dispatch that builds the path. *)
Definition shape_path (s : PShape.shape) : M unit :=
  match PShape.geom s with
  | PShape.GPShape vertices =>
      if PShape.has_attrib s "point" then
        match vertices with
        | [] => raise (IndexError "list index out of range")
        | v0 :: _ =>
            xy <- unpack2 v0 ;;
            emit (Vg.shapeAntiAlias 0) ;;
            emit (Vg.rect (fst xy) (snd xy) 1 1)
        end
      else walk_vertices 0 vertices
  | PShape.GArc center radii start_angle stop_angle =>
      c <- unpack3 center ;;
      r <- unpack3 radii ;;
      let '(cx, cy, _) := c in
      let '(rx, ry, _) := r in
      emit (Vg.arc cx cy rx start_angle stop_angle 2) ;;
      (if PShape.has_attrib s "pie" then emit (Vg.lineTo cx cy) else ret tt)
  | PShape.GEllipse center width height =>
      c <- unpack2 center ;;
      emit (Vg.ellipse (fst c) (snd c) (width / 2) (height / 2))
  | PShape.GRect center width height =>
      c <- unpack2 center ;;
      emit (Vg.rect (fst c) (snd c) width height)
  | PShape.GBezier start cp1 cp2 stop =>
      sxy <- unpack2 start ;;
      c1 <- unpack2 cp1 ;;
      c2 <- unpack2 cp2 ;;
      e <- unpack2 stop ;;
      emit (Vg.moveTo (fst sxy) (snd sxy)) ;;
      emit (Vg.bezierTo (fst c1) (snd c1) (fst c2) (snd c2) (fst e) (snd e))
  end.

Definition cap_type (cap : string) : Z :=
  if String.eqb cap "BUTT" then 1
  else if String.eqb cap "ROUND" then 2
  else if String.eqb cap "SQUARE" then 3
  else 1.

Definition join_type (join : string) : Z :=
  if String.eqb join "MITER" then 1
  else if String.eqb join "ROUND" then 2
  else if String.eqb join "SQUARE" then 3
  else 1.

(** Stroke style, then fill and stroke (renderer.py lines 255-281). *)
Definition paint (s : PShape.shape) : M unit :=
  emit (Vg.lineCap (cap_type (PShape.stroke_cap s))) ;;
  emit (Vg.lineJoin (join_type (PShape.stroke_join s))) ;;
  emit (Vg.strokeWidth (PShape.stroke_weight s)) ;;
  (match PShape.fill s with
   | Some f =>
       if String.eqb (PShape.kind s) "poly" then
         emit (Vg.fillColor (red f) (blue f) (green f) (alpha f)) ;;
         emit Vg.fill
       else ret tt
   | None => ret tt
   end) ;;
  match PShape.stroke s with
  | Some c =>
      emit (Vg.strokeColor (red c) (blue c) (green c) (alpha c)) ;;
      emit Vg.stroke
  | None => ret tt
  end.

Definition draw_shape (smooth : bool) (s : PShape.shape) : M unit :=
  emit (Vg.shapeAntiAlias (if smooth then 1 else 0)) ;;
  emit Vg.beginPath ;;
  emit Vg.save ;;
  emit (Vg.transform (PShape.entry s 0 0) (PShape.entry s 1 0)
          (PShape.entry s 0 1) (PShape.entry s 1 1)
          (PShape.entry s 0 3) (PShape.entry s 1 3)) ;;
  shape_path s ;;
  (if PShape.has_attrib s "closed" then emit Vg.closePath else ret tt) ;;
  emit Vg.restore ;;
  paint s.

End Renderer.

(** [p5/sketch/base.py]: [render(shape)] calls the renderer's [draw_shape]. *)
Definition render (smooth : bool) (s : PShape.shape) : M unit :=
  Renderer.draw_shape smooth s.

(** ** Shape construction: [p5/core/primitives.py] *)

Module Primitives.

(** The process-wide settings primitives.py reads: [_rect_mode],
    [_ellipse_mode], [curves.curve_resolution], the renderer's [smooth]
    flag and the style a new shape takes. *)
Record globals : Type := mkGlobals {
  rect_mode : string;
  ellipse_mode : string;
  curve_resolution : nat;
  smooth : bool;
  shape_defaults : PShape.defaults
}.

(** [for child_shape in shape.children: sketch.render(children)]: the
    loop body names [children], which is not bound in [draw_shape]. *)
Fixpoint render_children (smooth : bool) (cs : list PShape.shape) : M unit :=
  match cs with
  | [] => ret tt
  | _ :: cs' =>
      @raise unit (NameError "name 'children' is not defined") ;;
      render_children smooth cs'
  end.

Definition draw_shape (smooth : bool) (s : PShape.shape) : M unit :=
  render smooth s ;;
  render_children smooth (PShape.children s).

(** The [_draw_on_return] decorator. *)
Definition draw_on_return (g : globals) (s : PShape.shape) : M PShape.shape :=
  draw_shape (smooth g) s ;;
  ret s.

Definition resolve_mode (default : string) (mode : option string) : string :=
  match mode with Some m => m | None => default end.

(** [width, height = args]. *)
Definition unpack_args2 (args : list pyval) : M (pyval * pyval) :=
  match args with
  | [a; b] => ret (a, b)
  | _ => raise (unpack_error 2 (List.length args))
  end.

(** [corner_2, = args]. *)
Definition unpack_args1 (args : list pyval) : M pyval :=
  match args with
  | [a] => ret a
  | _ => raise (unpack_error 1 (List.length args))
  end.

(** [Point( *v)] for a value passed as a sequence. *)
Definition point_of (v : pyval) : M Pmath.point :=
  match v with
  | PSeq l => Pmath.Point l
  | PNum _ => raise (TypeError "argument after * must be an iterable")
  end.

(** The body of [rect] up to [return Rect(corner, width, height)].
    Width and height are documented numbers. *)
Definition rect_build (g : globals) (coordinate : list Q) (args : list pyval)
  (mode : option string) : M PShape.shape :=
  let mode := resolve_mode (rect_mode g) mode in
  let Rect corner width height :=
    PShape.make (shape_defaults g) (PShape.GRect corner width height) None in
  if String.eqb mode "CORNER" then
    wh <- unpack_args2 args ;;
    width <- as_num (fst wh) ;;
    height <- as_num (snd wh) ;;
    ret (Rect coordinate width height)
  else if String.eqb mode "CENTER" then
    center <- Pmath.Point coordinate ;;
    wh <- unpack_args2 args ;;
    width <- as_num (fst wh) ;;
    height <- as_num (snd wh) ;;
    let corner := Pmath.mkPoint (Pmath.x center - width / 2)
                    (Pmath.y center - height / 2) (Pmath.z center) in
    ret (Rect (Pmath.seq_of corner) width height)
  else if String.eqb mode "RADIUS" then
    center <- Pmath.Point coordinate ;;
    hwh <- unpack_args2 args ;;
    half_width <- as_num (fst hwh) ;;
    half_height <- as_num (snd hwh) ;;
    let corner := Pmath.mkPoint (Pmath.x center - half_width)
                    (Pmath.y center - half_height) (Pmath.z center) in
    ret (Rect (Pmath.seq_of corner) (2 * half_width) (2 * half_height))
  else if String.eqb mode "CORNERS" then
    corner <- Pmath.Point coordinate ;;
    c2 <- unpack_args1 args ;;
    corner_2 <- point_of c2 ;;
    let width := Pmath.x corner_2 - Pmath.x corner in
    let height := Pmath.y corner_2 - Pmath.y corner in
    ret (Rect (Pmath.seq_of corner) width height)
  else raise (ValueError ("Unknown rect mode " ++ mode)).

Definition rect (g : globals) (coordinate : list Q) (args : list pyval)
  (mode : option string) : M PShape.shape :=
  s <- rect_build g coordinate args mode ;;
  draw_on_return g s.

Definition square (g : globals) (coordinate : list Q) (side_length : Q)
  (mode : option string) : M PShape.shape :=
  let mode := resolve_mode (rect_mode g) mode in
  if String.eqb mode "CORNERS" then
    raise (ValueError "Cannot draw square with CORNERS mode")
  else rect g coordinate [PNum side_length; PNum side_length] (Some mode).

(** The body of [ellipse] up to [return Ellipse(coordinate, width, height)].
    The [center] and [dim] it computes are not used by that return. *)
Definition ellipse_build (g : globals) (coordinate : list Q) (args : list pyval)
  (mode : option string) : M PShape.shape :=
  let mode := resolve_mode (ellipse_mode g) mode in
  wh_mode <-
    (if String.eqb mode "CORNERS" then
       corner <- Pmath.Point coordinate ;;
       c2 <- unpack_args1 args ;;
       corner_2 <- point_of c2 ;;
       ret (Pmath.x corner_2 - Pmath.x corner,
            Pmath.y corner_2 - Pmath.y corner, "CORNER"%string)
     else
       wh <- unpack_args2 args ;;
       width <- as_num (fst wh) ;;
       height <- as_num (snd wh) ;;
       ret (width, height, mode)) ;;
  let '(width, height, mode) := wh_mode in
  (if String.eqb mode "CORNER" then
     corner <- Pmath.Point coordinate ;;
     let dim := Pmath.mkPoint width height 0 in
     let center := [Pmath.x corner + Pmath.x dim / 2;
                    Pmath.y corner + Pmath.y dim / 2; Pmath.z corner] in
     ret tt
   else if String.eqb mode "CENTER" then
     center <- Pmath.Point coordinate ;;
     let dim := Pmath.mkPoint (width / 2) (height / 2) 0 in
     ret tt
   else if String.eqb mode "RADIUS" then
     center <- Pmath.Point coordinate ;;
     let dim := Pmath.mkPoint width height 0 in
     ret tt
   else raise (ValueError ("Unknown ellipse mode " ++ mode))) ;;
  ret (PShape.make (shape_defaults g)
         (PShape.GEllipse coordinate width height) None).

Definition ellipse (g : globals) (coordinate : list Q) (args : list pyval)
  (mode : option string) : M PShape.shape :=
  s <- ellipse_build g coordinate args mode ;;
  draw_on_return g s.

Definition circle (g : globals) (coordinate : list Q) (radius : Q)
  (mode : option string) : M PShape.shape :=
  let mode := resolve_mode (ellipse_mode g) mode in
  if String.eqb mode "CORNERS" then
    raise (ValueError "Cannot create circle in CORNERS mode")
  else ellipse g coordinate [PNum radius; PNum radius] (Some mode).

(** Modelled from the spec: [curves.curve_point] (p5/pmath/curves.py, not
    in this tree), the Catmull-Rom basis applied to each coordinate. *)
Definition catmull_rom (a b c d t : Q) : Q :=
  (1 # 2) * (2 * b + (- a + c) * t + (2 * a - 5 * b + 4 * c - d) * (t * t)
             + (- a + 3 * b - 3 * c + d) * (t * t * t)).

(** Modelled from the spec: [curves.curve_point] on four points of one
    dimension, coordinate by coordinate (points of different dimensions
    cannot be combined). *)
Fixpoint curve_point (p1 p2 p3 p4 : list Q) (t : Q) : M (list Q) :=
  match p1, p2, p3, p4 with
  | [], [], [], [] => ret []
  | a :: p1', b :: p2', c :: p3', d :: p4' =>
      rest <- curve_point p1' p2' p3' p4' t ;;
      ret (catmull_rom a b c d t :: rest)
  | _, _, _, _ => raise (ValueError "operands could not be broadcast together")
  end.

(** [for i in range(steps + 1): t = i / steps; ...; vertices.append(p[:3])]. *)
Fixpoint curve_samples (steps : nat) (is : list nat) (p1 p2 p3 p4 : list Q)
  : M (list (list Q)) :=
  match is with
  | [] => ret []
  | i :: is' =>
      t <- py_div (inject_Z (Z.of_nat i)) (inject_Z (Z.of_nat steps)) ;;
      p <- curve_point p1 p2 p3 p4 t ;;
      rest <- curve_samples steps is' p1 p2 p3 p4 ;;
      ret (firstn 3 p :: rest)
  end.

Definition curve (g : globals) (point_1 point_2 point_3 point_4 : list Q)
  : M PShape.shape :=
  let steps := curve_resolution g in
  vertices <- curve_samples steps (seq 0 (S steps))
                point_1 point_2 point_3 point_4 ;;
  draw_on_return g
    (PShape.make (shape_defaults g) (PShape.GPShape vertices) (Some ["path"%string])).

(** Modelled from the spec: the attribute string a shape is created with
    ([attribs='open pie'], ['path'], ['point']) read as its
    space-separated tags. *)
Fixpoint split_words (cur : string) (s : string) : list string :=
  match s with
  | EmptyString => if String.eqb cur "" then [] else [cur]
  | String c s' =>
      if Ascii.eqb c " "%char then
        (if String.eqb cur "" then [] else [cur]) ++ split_words "" s'
      else split_words (cur ++ String c EmptyString) s'
  end.

Definition attribs_of (a : string) : list string := split_words "" a.

(** [point(x, y, z=0)]: [PShape([(x, y)], attribs='point')]; [z] is not
    used. *)
Definition point (g : globals) (x y z : Q) : M PShape.shape :=
  draw_on_return g
    (PShape.make (shape_defaults g) (PShape.GPShape [[x; y]])
       (Some (attribs_of "point"))).

(** [bezier(start, control_point_1, control_point_2, stop)]: the Bezier
    keeps the four points as given, with attribs 'path'. *)
Definition bezier (g : globals) (start control_point_1 control_point_2 stop : list Q)
  : M PShape.shape :=
  draw_on_return g
    (PShape.make (shape_defaults g)
       (PShape.GBezier start control_point_1 control_point_2 stop)
       (Some (attribs_of "path"))).

(** The ellipse-mode resolution of [arc]: the center and the radii it
    passes to [Arc]. *)
Definition arc_geometry (emode : string) (coordinate : list Q) (width height : Q)
  : M (list Q * list Q) :=
  if String.eqb emode "CORNER" then
    corner <- Pmath.Point coordinate ;;
    let dim := Pmath.mkPoint width height 0 in
    ret ([Pmath.x corner + Pmath.x dim / 2; Pmath.y corner + Pmath.y dim / 2;
          Pmath.z corner], Pmath.seq_of dim)
  else if String.eqb emode "CENTER" then
    center <- Pmath.Point coordinate ;;
    ret (Pmath.seq_of center, Pmath.seq_of (Pmath.mkPoint (width / 2) (height / 2) 0))
  else if String.eqb emode "RADIUS" then
    center <- Pmath.Point coordinate ;;
    ret (Pmath.seq_of center, Pmath.seq_of (Pmath.mkPoint width height 0))
  else raise (ValueError ("Unknown arc mode " ++ emode)).

(** [arc(coordinate, width, height, start_angle, stop_angle, mode='OPEN PIE',
    ellipse_mode=None)]; [ellipse_mode] is the argument, [None] taking
    the sketch's ellipse mode. *)
Definition arc (g : globals) (coordinate : list Q)
  (width height start_angle stop_angle : Q) (mode : string)
  (emode_arg : option string) : M PShape.shape :=
  let amode := mode in
  let emode := resolve_mode (ellipse_mode g) emode_arg in
  cr <- arc_geometry emode coordinate width height ;;
  draw_on_return g
    (PShape.make (shape_defaults g)
       (PShape.GArc (fst cr) (snd cr) start_angle stop_angle)
       (Some (attribs_of amode))).

End Primitives.

(** ** Style setters: [p5/core/attribs.py] *)

Module Attribs.

(** A setter run on the renderer globals: its outcome and the globals
    after it. *)
Definition setter := Renderer.state -> (exn + unit) * Renderer.state.

Definition set_stroke_cap (cap : string) (st : Renderer.state) : Renderer.state :=
  Renderer.mkState (Renderer.fill_color st) (Renderer.fill_enabled st)
    (Renderer.stroke_color st) (Renderer.stroke_enabled st)
    (Renderer.stroke_weight st) cap (Renderer.stroke_join st)
    (Renderer.smooth st) (Renderer.tint_color st) (Renderer.tint_enabled st).

Definition set_stroke_join (join : string) (st : Renderer.state) : Renderer.state :=
  Renderer.mkState (Renderer.fill_color st) (Renderer.fill_enabled st)
    (Renderer.stroke_color st) (Renderer.stroke_enabled st)
    (Renderer.stroke_weight st) (Renderer.stroke_cap st) join
    (Renderer.smooth st) (Renderer.tint_color st) (Renderer.tint_enabled st).

(** The messages quote the names in the source; they are written here
    without the quotes. *)
Definition stroke_cap (cap : string) : setter := fun st =>
  if negb (String.eqb cap "BUTT") && negb (String.eqb cap "ROUND")
     && negb (String.eqb cap "SQUARE")
  then (inl (ValueError "Cap must be BUTT, ROUND or SQUARE"), st)
  else (inr tt, set_stroke_cap cap st).

Definition stroke_join (join : string) : setter := fun st =>
  if negb (String.eqb join "MITER") && negb (String.eqb join "ROUND")
     && negb (String.eqb join "SQUARE")
  then (inl (ValueError "Join must be MITER, ROUND or SQUARE"), st)
  else (inr tt, set_stroke_join join st).

End Attribs.

(** ** A concrete sketch configuration *)

Definition identity4 : list (list Q) :=
  [[1; 0; 0; 0]; [0; 1; 0; 0]; [0; 0; 1; 0]; [0; 0; 0; 1]].

Definition white : color := mkColor 1 1 1 1.
Definition black : color := mkColor 0 0 0 1.

Definition defaults0 : PShape.defaults :=
  PShape.mkDefaults identity4 ["closed"%string] "BUTT" "MITER" 1 "poly"
    (Some white) (Some black).

(** The module defaults of primitives.py: rect mode CORNER, ellipse mode
    CENTER, a curve resolution of 20, smoothing on. *)
Definition g0 : Primitives.globals :=
  Primitives.mkGlobals "CORNER" "CENTER" 20 true defaults0.

(** ** Fixtures *)

Definition st0 : Renderer.state :=
  Renderer.mkState white true black true 1 "BUTT" "MITER" true black false.

(** A two-point path with one child. *)
Definition leaf : PShape.shape :=
  PShape.make defaults0 (PShape.GPShape [[0; 0]; [1; 0]]) (Some ["path"%string]).

Definition parent : PShape.shape :=
  PShape.mkShape (PShape.GPShape [[0; 0]; [1; 1]]) identity4 ["path"%string]
    "BUTT" "MITER" 1 "poly" (Some white) (Some black) [leaf].

(** A triangle whose fill and stroke have distinct green and blue. *)
Definition tinted : PShape.shape :=
  PShape.mkShape (PShape.GPShape [[0; 0]; [1; 0]; [1; 1]]) identity4
    ["closed"%string] "BUTT" "MITER" 1 "poly"
    (Some (mkColor 1 (1 # 5) (3 # 5) 1)) (Some (mkColor 0 (1 # 5) (2 # 5) 1)) [].

(** An arc of radii [2] and [ry] from angle 0 to 1, drawn as a pie. *)
Definition pie_arc (ry : Q) : PShape.shape :=
  PShape.mkShape (PShape.GArc [0; 0; 0] [2; ry; 0] 0 1) identity4
    ["open"%string; "pie"%string] "BUTT" "MITER" 1 "poly" (Some white)
    (Some black) [].

(** A rectangle drawn from a two-component corner. *)
Definition plain_rect : PShape.shape :=
  PShape.make defaults0 (PShape.GRect [0; 0] 3 4) None.

(** A filled and stroked "poly" Rect whose center has three components. *)
Definition bad_rect : PShape.shape :=
  PShape.make defaults0 (PShape.GRect [0; 0; 0] 1 1) None.

(** A sketch with a curve resolution of 2. *)
Definition g2 : Primitives.globals :=
  Primitives.mkGlobals "CORNER" "CENTER" 2 true defaults0.

(** A computation that emits neither [fill] nor [stroke]. *)
Definition quiet {A} (m : M A) : Prop :=
  Forall (fun c => c <> Vg.fill /\ c <> Vg.stroke) (fst m).

Definition not_paint (c : Vg.cmd) : Prop := c <> Vg.fill /\ c <> Vg.stroke.

(** A vertex given as an (x, y) pair. *)
Definition pair_to_list (p : Q * Q) : list Q := [fst p; snd p].

(** The path of a polyline: [moveTo] its first vertex, [lineTo] the rest. *)
Definition polyline (ps : list (Q * Q)) : list Vg.cmd :=
  match ps with
  | [] => []
  | p :: ps' => Vg.moveTo (fst p) (snd p)
                  :: map (fun q => Vg.lineTo (fst q) (snd q)) ps'
  end.

(** The Catmull-Rom point of four (x, y) points at parameter [t]. *)
Definition curve_xy (p1 p2 p3 p4 : Q * Q) (t : Q) : Q * Q :=
  (Primitives.catmull_rom (fst p1) (fst p2) (fst p3) (fst p4) t,
   Primitives.catmull_rom (snd p1) (snd p2) (snd p3) (snd p4) t).

(** The commands that build a path (as opposed to the frame commands
    [beginPath], [save], [transform], [restore] and the paint commands). *)
Definition path_cmd (c : Vg.cmd) : Prop :=
  match c with
  | Vg.shapeAntiAlias _ | Vg.rect _ _ _ _ | Vg.moveTo _ _ | Vg.lineTo _ _
  | Vg.arc _ _ _ _ _ _ | Vg.ellipse _ _ _ _ | Vg.bezierTo _ _ _ _ _ _
  | Vg.closePath => True
  | _ => False
  end.

(** The commands [draw_shape] emits before the path. *)
Definition frame_open (sm : bool) (s : PShape.shape) : list Vg.cmd :=
  [Vg.shapeAntiAlias (if sm then 1 else 0); Vg.beginPath; Vg.save;
   Vg.transform (PShape.entry s 0 0) (PShape.entry s 1 0)
     (PShape.entry s 0 1) (PShape.entry s 1 1)
     (PShape.entry s 0 3) (PShape.entry s 1 3)].

(** * Properties *)

(** ** Running a bind *)

Lemma bind_inr {A B} (m : M A) (k : A -> M B) l b :
  bind m k = (l, inr b) ->
  exists l1 a l2, m = (l1, inr a) /\ k a = (l2, inr b) /\ l = l1 ++ l2.
Proof.
  destruct m as [l1 [e | a]]; simpl; [congruence |].
  destruct (k a) as [l2 r] eqn:Hk; intros H; inversion H; subst.
  exists l1, a, l2; auto.
Qed.

Lemma bind_ret_l {A B} (a : A) (k : A -> M B) : bind (ret a) k = k a.
Proof. unfold bind, ret; simpl; destruct (k a); reflexivity. Qed.

Lemma quiet_ret {A} (a : A) : quiet (ret a).
Proof. constructor. Qed.

Lemma quiet_raise {A} (e : exn) : quiet (@raise A e).
Proof. constructor. Qed.

Lemma quiet_bind {A B} (m : M A) (k : A -> M B) :
  quiet m -> (forall a, quiet (k a)) -> quiet (bind m k).
Proof.
  unfold quiet; destruct m as [l1 [e | a]]; simpl; auto; intros H1 H2.
  specialize (H2 a); destruct (k a) as [l2 r]; simpl in *.
  apply Forall_app; auto.
Qed.

Lemma quiet_unpack2 l : quiet (unpack2 l).
Proof. unfold unpack2; repeat (destruct l as [| ? l]; try constructor). Qed.

Lemma quiet_unpack3 l : quiet (unpack3 l).
Proof. unfold unpack3; repeat (destruct l as [| ? l]; try constructor). Qed.

Create HintDb quiet.
#[local] Hint Resolve quiet_ret quiet_raise quiet_bind quiet_unpack2
  quiet_unpack3 : quiet.

Ltac quiet_emit :=
  unfold quiet, emit; simpl; constructor; [split; discriminate | constructor].

Ltac quiet_solve :=
  repeat match goal with
  | |- forall _, _ => intros
  | |- quiet (emit _) => quiet_emit
  | |- quiet (bind _ _) => apply quiet_bind
  | |- quiet (unpack2 _) => apply quiet_unpack2
  | |- quiet (unpack3 _) => apply quiet_unpack3
  | |- quiet (ret _) => apply quiet_ret
  | |- quiet (raise _) => apply quiet_raise
  | |- quiet (match ?x with _ => _ end) => destruct x
  end.

Lemma quiet_walk_vertices i vs : quiet (Renderer.walk_vertices i vs).
Proof.
  revert i; induction vs as [| v vs IH]; intros i; simpl; [apply quiet_ret |].
  quiet_solve; apply IH.
Qed.

Lemma quiet_shape_path s : quiet (Renderer.shape_path s).
Proof.
  unfold Renderer.shape_path.
  destruct (PShape.geom s) as [vs | c r a0 a1 | c w h | c w h | st c1 c2 sp];
    quiet_solve.
  apply quiet_walk_vertices.
Qed.

(** [paint] never raises. *)
Lemma paint_ok s : exists lp, Renderer.paint s = (lp, inr tt).
Proof.
  unfold Renderer.paint.
  destruct (PShape.fill s); [destruct (String.eqb (PShape.kind s) "poly") |];
  destruct (PShape.stroke s); simpl; eexists; reflexivity.
Qed.

Lemma bind_quiet_split {A B} (m : M A) (k : A -> M B) l b :
  quiet m -> bind m k = (l, inr b) ->
  exists l1 a l2, Forall not_paint l1 /\ k a = (l2, inr b) /\ l = l1 ++ l2.
Proof.
  intros Hq H; apply bind_inr in H as (l1 & a & l2 & Hm & Hk & ->).
  exists l1, a, l2; unfold quiet in Hq; rewrite Hm in Hq; auto.
Qed.

Ltac peel H :=
  apply bind_quiet_split in H;
  [ let l := fresh "l" in let F := fresh "F" in
    destruct H as (l & ? & ? & F & H & ->)
  | first [quiet_emit | apply quiet_shape_path | quiet_solve] ].

(** A completed [draw_shape] emits path commands without [fill] or
    [stroke], then exactly what [paint] emits. *)
Lemma draw_shape_split sm s cmds r :
  Renderer.draw_shape sm s = (cmds, inr r) ->
  exists pre, Forall not_paint pre /\ cmds = pre ++ fst (Renderer.paint s).
Proof.
  unfold Renderer.draw_shape; intros H.
  do 7 peel H.
  rewrite H; simpl; rewrite !app_assoc.
  eexists; split; [| reflexivity].
  rewrite !Forall_app; repeat split; assumption.
Qed.

Lemma not_paint_notin pre c lp :
  Forall not_paint pre -> (c = Vg.fill \/ c = Vg.stroke) ->
  (In c (pre ++ lp) <-> In c lp).
Proof.
  intros Hf Hc; rewrite in_app_iff; split; [| auto].
  intros [Hin | Hin]; auto.
  rewrite Forall_forall in Hf; apply Hf in Hin as [H1 H2].
  destruct Hc; subst; contradiction.
Qed.

(** ** Catmull-Rom samples *)

Lemma curve_point_at_0 p1 p2 p3 p4 t l p :
  Primitives.curve_point p1 p2 p3 p4 t = (l, inr p) -> t == 0 ->
  Forall2 Qeq p p2.
Proof.
  revert p2 p3 p4 l p.
  induction p1 as [| a p1 IH]; intros [| b p2] [| c p3] [| d p4] l p H Ht;
    simpl in H; try discriminate.
  - inversion H; constructor.
  - apply bind_inr in H as (l1 & rest & l2 & Hr & Hk & _).
    inversion Hk; subst; constructor.
    + unfold Primitives.catmull_rom; rewrite Ht; ring.
    + eapply IH; eauto.
Qed.

Lemma curve_point_at_1 p1 p2 p3 p4 t l p :
  Primitives.curve_point p1 p2 p3 p4 t = (l, inr p) -> t == 1 ->
  Forall2 Qeq p p3.
Proof.
  revert p2 p3 p4 l p.
  induction p1 as [| a p1 IH]; intros [| b p2] [| c p3] [| d p4] l p H Ht;
    simpl in H; try discriminate.
  - inversion H; constructor.
  - apply bind_inr in H as (l1 & rest & l2 & Hr & Hk & _).
    inversion Hk; subst; constructor.
    + unfold Primitives.catmull_rom; rewrite Ht; ring.
    + eapply IH; eauto.
Qed.

(** Each sample of a completed [curve_samples] is the curve point at
    [i / steps], cut to three coordinates, and [steps] is not zero. *)
Lemma curve_samples_ok steps is p1 p2 p3 p4 l vs :
  Primitives.curve_samples steps is p1 p2 p3 p4 = (l, inr vs) ->
  Forall2 (fun i v => ~ inject_Z (Z.of_nat steps) == 0 /\
             exists l' p, Primitives.curve_point p1 p2 p3 p4
                            (inject_Z (Z.of_nat i) / inject_Z (Z.of_nat steps))
                          = (l', inr p) /\ v = firstn 3 p) is vs.
Proof.
  revert l vs; induction is as [| i is IH]; intros l vs H; simpl in H.
  - inversion H; constructor.
  - apply bind_inr in H as (l1 & t & l2 & Hd & H & _).
    unfold py_div in Hd.
    destruct (Qeq_bool (inject_Z (Z.of_nat steps)) 0) eqn:Hz; [discriminate |].
    inversion Hd; subst.
    apply bind_inr in H as (l3 & p & l4 & Hp & H & _).
    apply bind_inr in H as (l5 & rest & l6 & Hr & H & _).
    inversion H; subst; constructor.
    + split; [intros Hq; apply Qeq_bool_iff in Hq; congruence |].
      exists l3, p; auto.
    + eapply IH; eauto.
Qed.

Lemma firstn_3_eq (p q : list Q) :
  Forall2 Qeq p q -> (List.length q <= 3)%nat -> Forall2 Qeq (firstn 3 p) q.
Proof.
  intros H Hl; rewrite firstn_all2; auto.
  apply Forall2_length in H; lia.
Qed.

(** * Claims *)

(** C1 (code bug).  [ellipse] computes the mode-resolved [center] and
    [dim] but returns [Ellipse(coordinate, width, height)]: in CORNER mode
    the stored center is the corner (0, 0), not (5, 10); in CORNERS mode it
    is the first corner, not the midpoint; and in RADIUS mode the renderer
    halves the stored radii 10 and 20 to 5 and 10. *)
Theorem ellipse_keeps_raw_coordinate :
  Primitives.ellipse_build g0 [0; 0] [PNum 10; PNum 20] (Some "CORNER"%string)
    = ret (PShape.make defaults0 (PShape.GEllipse [0; 0] 10 20) None) /\
  Primitives.ellipse_build g0 [0; 0] [PSeq [10; 20]] (Some "CORNERS"%string)
    = ret (PShape.make defaults0 (PShape.GEllipse [0; 0] 10 20) None) /\
  In (Vg.ellipse 0 0 (10 / 2) (20 / 2))
    (fst (Primitives.ellipse g0 [0; 0] [PNum 10; PNum 20] (Some "CORNER"%string))) /\
  In (Vg.ellipse 0 0 (10 / 2) (20 / 2))
    (fst (Primitives.ellipse g0 [0; 0] [PNum 10; PNum 20] (Some "RADIUS"%string))).
Proof.
  repeat split; try reflexivity;
    vm_compute; repeat (first [left; reflexivity | right]).
Qed.

(** C2 (code bug).  The primitives' [draw_shape] renders the shape and
    then, for its first child, evaluates the unbound name [children]: on a
    shape with one child it raises [NameError] after the parent's commands,
    and the child is never rendered. *)
Theorem draw_shape_child_name_error :
  snd (Renderer.draw_shape true parent) = inr tt /\
  Primitives.draw_shape true parent
    = (fst (Renderer.draw_shape true parent),
       inl (NameError "name 'children' is not defined")).
Proof. split; reflexivity. Qed.

(** C3 (code bug).  The renderer unpacks [r, g, b, a] from the normalized
    color and calls [fillColor(r, b, g, a)] and [strokeColor(r, b, g, a)]:
    green and blue are passed in swapped positions. *)
Theorem draw_shape_swaps_green_blue :
  let cmds := fst (Renderer.draw_shape true tinted) in
  snd (Renderer.draw_shape true tinted) = inr tt /\
  In (Vg.fillColor 1 (3 # 5) (1 # 5) 1) cmds /\
  ~ In (Vg.fillColor 1 (1 # 5) (3 # 5) 1) cmds /\
  In (Vg.strokeColor 0 (2 # 5) (1 # 5) 1) cmds /\
  ~ In (Vg.strokeColor 0 (1 # 5) (2 # 5) 1) cmds.
Proof.
  vm_compute; repeat split;
    first [ solve [repeat (first [left; reflexivity | right])]
          | intros H; repeat (destruct H as [H | H]; [discriminate |]);
            exact H ].
Qed.

(** C4.  For a center [coordinate] (read as the Point [c]) and numbers
    [w], [h], [rect] in CENTER mode and [rect] in CORNER mode at the corner
    [c - (w/2, h/2)] build the same Rect (same corner, width and height),
    and the two calls behave identically. *)
Theorem rect_center_matches_corner g coordinate c w h :
  Pmath.Point coordinate = ret c ->
  let corner := Pmath.seq_of
        (Pmath.mkPoint (Pmath.x c - w / 2) (Pmath.y c - h / 2) (Pmath.z c)) in
  Primitives.rect_build g coordinate [PNum w; PNum h] (Some "CENTER"%string)
    = Primitives.rect_build g corner [PNum w; PNum h] (Some "CORNER"%string) /\
  Primitives.rect g coordinate [PNum w; PNum h] (Some "CENTER"%string)
    = Primitives.rect g corner [PNum w; PNum h] (Some "CORNER"%string).
Proof.
  intros Hp corner.
  assert (Hb : Primitives.rect_build g coordinate [PNum w; PNum h]
                 (Some "CENTER"%string)
               = Primitives.rect_build g corner [PNum w; PNum h]
                   (Some "CORNER"%string)).
  { unfold Primitives.rect_build, Primitives.resolve_mode; rewrite Hp.
    reflexivity. }
  split; [exact Hb | unfold Primitives.rect; rewrite Hb; reflexivity].
Qed.

Lemma rect_center_matches_corner_witness :
  Pmath.Point [4; 6] = ret (Pmath.mkPoint 4 6 0) /\
  Primitives.rect_build g0 [4; 6] [PNum 2; PNum 2] (Some "CENTER"%string)
    = Primitives.rect_build g0 [4 - 2 / 2; 6 - 2 / 2; 0] [PNum 2; PNum 2]
        (Some "CORNER"%string) /\
  Primitives.rect g0 [4; 6] [PNum 2; PNum 2] (Some "CENTER"%string)
    = Primitives.rect g0 [4 - 2 / 2; 6 - 2 / 2; 0] [PNum 2; PNum 2]
        (Some "CORNER"%string).
Proof.
  split; [reflexivity |].
  apply (rect_center_matches_corner g0 [4; 6] (Pmath.mkPoint 4 6 0) 2 2).
  reflexivity.
Defined.

(** Every CORNERS rect stores its first corner as a three-component
    Point, which the renderer's [cx, cy = shape._center] cannot unpack. *)
Lemma rect_corners_unpack_error g p q c1 c2 :
  Pmath.Point p = ret c1 -> Pmath.Point q = ret c2 ->
  snd (Primitives.rect g p [PSeq q] (Some "CORNERS"%string))
    = inl (ValueError "too many values to unpack").
Proof.
  intros Hp Hq.
  unfold Primitives.rect, Primitives.rect_build, Primitives.resolve_mode.
  simpl String.eqb; cbv iota beta.
  rewrite Hp, bind_ret_l.
  change (Primitives.unpack_args1 [PSeq q]) with (ret (PSeq q)).
  rewrite bind_ret_l.
  change (Primitives.point_of (PSeq q)) with (Pmath.Point q).
  rewrite Hq, bind_ret_l, bind_ret_l.
  reflexivity.
Qed.

(** C5 (code bug).  [rect((0, 0), (-3, -4), mode='CORNERS')] builds a
    Rect of width -3 and height -4 but then raises in the renderer, whose
    Rect branch unpacks the three-component corner into two names. *)
Theorem rect_corners_raises :
  Primitives.rect_build g0 [0; 0] [PSeq [-3; -4]] (Some "CORNERS"%string)
    = ret (PShape.make defaults0 (PShape.GRect [0; 0; 0] (-3) (-4)) None) /\
  Primitives.rect g0 [0; 0] [PSeq [-3; -4]] (Some "CORNERS"%string)
    = ([Vg.shapeAntiAlias 1; Vg.beginPath; Vg.save; Vg.transform 1 0 0 1 0 0],
       inl (ValueError "too many values to unpack")).
Proof. split; reflexivity. Qed.

(** C6 (code bug).  The renderer's Arc branch unpacks [rx, ry, _] but
    passes only [rx] to the canvas [arc]: two arcs that differ only in
    their y-radius (3 and 5) draw exactly the same commands, among them the
    circular [arc(0, 0, 2, 0, 1, 2)].  The y-radius never reaches the
    canvas, whereas the Ellipse branch uses both radii. *)
Theorem draw_shape_arc_ignores_ry :
  Renderer.draw_shape true (pie_arc 3) = Renderer.draw_shape true (pie_arc 5) /\
  In (Vg.arc 0 0 2 0 1 2) (fst (Renderer.draw_shape true (pie_arc 3))).
Proof.
  split; [reflexivity |].
  vm_compute; repeat (first [left; reflexivity | right]).
Qed.

(** C7.  Whenever [curve(p1, p2, p3, p4)] returns a shape, its vertices
    number [steps + 1] (the curve resolution), the first equals [p2] and
    the last equals [p3] (as rationals, for points of at most three
    coordinates). *)
Theorem curve_vertices_endpoints g p1 p2 p3 p4 cmds s :
  (List.length p2 <= 3)%nat -> (List.length p3 <= 3)%nat ->
  Primitives.curve g p1 p2 p3 p4 = (cmds, inr s) ->
  exists vs, PShape.geom s = PShape.GPShape vs /\
    List.length vs = S (Primitives.curve_resolution g) /\
    Forall2 Qeq (hd [] vs) p2 /\ Forall2 Qeq (last vs []) p3.
Proof.
  intros Hl2 Hl3 H; unfold Primitives.curve in H.
  apply bind_inr in H as (l1 & vs & l2 & Hs & Hd & _).
  unfold Primitives.draw_on_return in Hd.
  apply bind_inr in Hd as (l3 & _ & l4 & _ & Hr & _).
  inversion Hr; subst s; clear Hr.
  exists vs; split; [reflexivity |].
  set (steps := Primitives.curve_resolution g) in *.
  apply curve_samples_ok in Hs.
  split; [apply Forall2_length in Hs; rewrite <- Hs, length_seq; reflexivity |].
  split.
  - inversion Hs as [| i v is' vs' [Hz (l' & p & Hp & ->)] _ Hi Hv]; subst.
    simpl; apply firstn_3_eq; auto.
    eapply curve_point_at_0; [exact Hp |].
    unfold Qdiv; apply Qmult_0_l.
  - rewrite seq_S in Hs; simpl in Hs.
    apply Forall2_app_inv_l in Hs as (vs1 & vs2 & _ & Hs2 & ->).
    inversion Hs2 as [| i v is' vs' [Hz (l' & p & Hp & ->)] Hnil Hi Hv]; subst.
    inversion Hnil; subst.
    rewrite last_last; apply firstn_3_eq; auto.
    eapply curve_point_at_1; [exact Hp |].
    unfold Qdiv; apply Qmult_inv_r; exact Hz.
Qed.

Lemma curve_vertices_endpoints_witness :
  exists cmds s,
    Primitives.curve g2 [0; 0] [1; 0] [2; 1] [3; 3] = (cmds, inr s) /\
    exists vs, PShape.geom s = PShape.GPShape vs /\
      List.length vs = S (Primitives.curve_resolution g2) /\
      Forall2 Qeq (hd [] vs) [1; 0] /\ Forall2 Qeq (last vs []) [2; 1].
Proof.
  eexists; eexists; split; [reflexivity |].
  eapply (curve_vertices_endpoints g2 [0; 0] [1; 0] [2; 1] [3; 3]);
    [simpl; lia | simpl; lia | reflexivity].
Defined.

(** C8.  [stroke_cap(x)] for [x] outside BUTT, ROUND, SQUARE raises
    [ValueError] and leaves the renderer globals (the cap among them) as
    they were; [stroke_join(y)] for [y] outside MITER, ROUND, SQUARE
    likewise. *)
Theorem stroke_cap_join_reject st :
  (forall x, ~ In x ["BUTT"; "ROUND"; "SQUARE"]%string ->
     Attribs.stroke_cap x st
       = (inl (ValueError "Cap must be BUTT, ROUND or SQUARE"), st)) /\
  (forall y, ~ In y ["MITER"; "ROUND"; "SQUARE"]%string ->
     Attribs.stroke_join y st
       = (inl (ValueError "Join must be MITER, ROUND or SQUARE"), st)).
Proof.
  split; intros v Hv; simpl in Hv;
    [unfold Attribs.stroke_cap | unfold Attribs.stroke_join];
    repeat match goal with
    | |- context [String.eqb v ?k] =>
        replace (String.eqb v k) with false
          by (symmetry; apply String.eqb_neq; intros ->; tauto)
    end; reflexivity.
Qed.

Lemma stroke_cap_join_reject_witness :
  Attribs.stroke_cap "TRIANGLE" st0
    = (inl (ValueError "Cap must be BUTT, ROUND or SQUARE"), st0) /\
  Attribs.stroke_join "BEVEL" st0
    = (inl (ValueError "Join must be MITER, ROUND or SQUARE"), st0).
Proof.
  split; [apply (proj1 (stroke_cap_join_reject st0))
         | apply (proj2 (stroke_cap_join_reject st0))];
    simpl; intros H; repeat (destruct H as [H | H]; [discriminate |]);
    exact H.
Defined.

(** C9.  [square(coordinate, side, mode='CORNERS')] and
    [circle(coordinate, radius, mode='CORNERS')] raise [ValueError] before
    any shape is built or drawn: no canvas command is emitted. *)
Theorem square_circle_reject_corners g coordinate side radius :
  Primitives.square g coordinate side (Some "CORNERS"%string)
    = ([], inl (ValueError "Cannot draw square with CORNERS mode")) /\
  Primitives.circle g coordinate radius (Some "CORNERS"%string)
    = ([], inl (ValueError "Cannot create circle in CORNERS mode")).
Proof. split; reflexivity. Qed.




(** * Further properties *)

(** ** Frame and path of the renderer's [draw_shape] *)

Lemma Forall_bind (P : Vg.cmd -> Prop) {A B} (m : M A) (k : A -> M B) :
  Forall P (fst m) -> (forall a, Forall P (fst (k a))) ->
  Forall P (fst (bind m k)).
Proof.
  destruct m as [l1 [e | a]]; simpl; auto; intros H1 H2.
  specialize (H2 a); destruct (k a) as [l2 r]; simpl in *.
  apply Forall_app; auto.
Qed.

Ltac path_solve :=
  repeat match goal with
  | |- forall _, _ => intros
  | |- Forall path_cmd (fst (emit _)) => repeat constructor
  | |- Forall path_cmd (fst (bind _ _)) => apply Forall_bind
  | |- Forall path_cmd (fst (unpack2 ?l)) =>
      unfold unpack2; repeat (destruct l as [| ? l]; try constructor)
  | |- Forall path_cmd (fst (unpack3 ?l)) =>
      unfold unpack3; repeat (destruct l as [| ? l]; try constructor)
  | |- Forall path_cmd (fst (ret _)) => constructor
  | |- Forall path_cmd (fst (raise _)) => constructor
  | |- Forall path_cmd (fst (match ?x with _ => _ end)) => destruct x
  end.

Lemma path_walk_vertices i vs :
  Forall path_cmd (fst (Renderer.walk_vertices i vs)).
Proof.
  revert i; induction vs as [| v vs IH]; intros i; simpl; [constructor |].
  path_solve; apply IH.
Qed.

Lemma path_shape_path s : Forall path_cmd (fst (Renderer.shape_path s)).
Proof.
  unfold Renderer.shape_path.
  destruct (PShape.geom s) as [vs | c r a0 a1 | c w h | c w h | st c1 c2 sp];
    path_solve.
  apply path_walk_vertices.
Qed.

(** [draw_shape] once the path has been built. *)
Lemma draw_shape_path_ok sm s lp u :
  Renderer.shape_path s = (lp, inr u) ->
  Renderer.draw_shape sm s =
    (frame_open sm s ++ lp
     ++ (if PShape.has_attrib s "closed" then [Vg.closePath] else [])
     ++ Vg.restore :: fst (Renderer.paint s), inr tt).
Proof.
  intros Hs; destruct (paint_ok s) as [lp' Hp].
  unfold Renderer.draw_shape; rewrite Hs, Hp; simpl.
  destruct (PShape.has_attrib s "closed"); simpl; rewrite <- ?app_assoc;
    reflexivity.
Qed.

(** [draw_shape] when building the path raises. *)
Lemma draw_shape_path_err sm s lp e :
  Renderer.shape_path s = (lp, inl e) ->
  Renderer.draw_shape sm s = (frame_open sm s ++ lp, inl e).
Proof.
  intros Hs; unfold Renderer.draw_shape; rewrite Hs; reflexivity.
Qed.

(** The decorator on a childless shape that the renderer draws. *)
Lemma draw_on_return_ok g s cmds :
  PShape.children s = [] ->
  Renderer.draw_shape (Primitives.smooth g) s = (cmds, inr tt) ->
  Primitives.draw_on_return g s = (cmds, inr s).
Proof.
  intros Hc Hd.
  unfold Primitives.draw_on_return, Primitives.draw_shape, render.
  rewrite Hd, Hc; simpl; rewrite !app_nil_r; reflexivity.
Qed.

Lemma draw_on_return_err g s cmds e :
  Renderer.draw_shape (Primitives.smooth g) s = (cmds, inl e) ->
  Primitives.draw_on_return g s = (cmds, inl e).
Proof.
  intros Hd.
  unfold Primitives.draw_on_return, Primitives.draw_shape, render.
  rewrite Hd; reflexivity.
Qed.

Lemma walk_vertices_pairs i ps :
  Renderer.walk_vertices (S i) (map pair_to_list ps)
    = (map (fun q => Vg.lineTo (fst q) (snd q)) ps, inr tt).
Proof.
  revert i; induction ps as [| p ps IH]; intros i; [reflexivity |].
  simpl; rewrite IH; reflexivity.
Qed.

Lemma walk_vertices_polyline ps :
  Renderer.walk_vertices 0 (map pair_to_list ps) = (polyline ps, inr tt).
Proof.
  destruct ps as [| p ps]; [reflexivity |].
  simpl; rewrite walk_vertices_pairs; reflexivity.
Qed.

(** X1.  A completed [draw_shape] emits the frame ([shapeAntiAlias],
    [beginPath], [save], [transform]), then only path commands, then one
    [restore] and the paint commands: every [save] is matched by one
    [restore] before any fill or stroke. *)
Theorem draw_shape_frame_balanced sm s cmds :
  Renderer.draw_shape sm s = (cmds, inr tt) ->
  exists path, Forall path_cmd path /\
    cmds = frame_open sm s ++ path ++ Vg.restore :: fst (Renderer.paint s).
Proof.
  intros H.
  pose proof (path_shape_path s) as Hf.
  destruct (Renderer.shape_path s) as [lp [e | u]] eqn:Hs.
  - rewrite (draw_shape_path_err sm s lp e Hs) in H; discriminate.
  - rewrite (draw_shape_path_ok sm s lp u Hs) in H; inversion H; subst.
    exists (lp ++ (if PShape.has_attrib s "closed" then [Vg.closePath] else [])).
    split.
    + apply Forall_app; split; [exact Hf |].
      destruct (PShape.has_attrib s "closed"); repeat constructor.
    + rewrite <- app_assoc; reflexivity.
Qed.

Lemma draw_shape_frame_balanced_witness :
  exists cmds, Renderer.draw_shape true plain_rect = (cmds, inr tt) /\
  exists path, Forall path_cmd path /\
    cmds = frame_open true plain_rect ++ path
             ++ Vg.restore :: fst (Renderer.paint plain_rect).
Proof.
  eexists; split; [reflexivity |].
  apply (draw_shape_frame_balanced true plain_rect); reflexivity.
Defined.

(** X2.  When the renderer's [draw_shape] raises, it has emitted the frame
    with its [save] and then only path commands: the [restore] is never
    emitted, nor any paint command. *)
Theorem draw_shape_error_skips_restore sm s cmds e :
  Renderer.draw_shape sm s = (cmds, inl e) ->
  (exists path, Forall path_cmd path /\ cmds = frame_open sm s ++ path) /\
  In Vg.save cmds /\ ~ In Vg.restore cmds.
Proof.
  intros H.
  pose proof (path_shape_path s) as Hf.
  destruct (Renderer.shape_path s) as [lp [e' | u]] eqn:Hs.
  - rewrite (draw_shape_path_err sm s lp e' Hs) in H; inversion H; subst.
    split; [exists lp; auto |].
    split; [simpl; auto |].
    unfold frame_open; simpl; intros Hin.
    repeat (destruct Hin as [Hin | Hin]; [discriminate |]).
    rewrite Forall_forall in Hf; apply Hf in Hin; exact Hin.
  - rewrite (draw_shape_path_ok sm s lp u Hs) in H; discriminate.
Qed.

Lemma draw_shape_error_skips_restore_witness :
  exists cmds e,
    Renderer.draw_shape true
      (PShape.make defaults0 (PShape.GRect [0; 0; 0] 1 1) None) = (cmds, inl e) /\
  (exists path, Forall path_cmd path /\
     cmds = frame_open true
              (PShape.make defaults0 (PShape.GRect [0; 0; 0] 1 1) None) ++ path) /\
  In Vg.save cmds /\ ~ In Vg.restore cmds.
Proof.
  do 2 eexists; split; [reflexivity |].
  eapply draw_shape_error_skips_restore; reflexivity.
Defined.

(** ** Paths of plain shapes, points and Bezier curves *)

(** X3.  A plain PShape (without the "point" tag) whose vertices are
    (x, y) pairs is drawn as [moveTo] the first vertex and [lineTo] each
    following one, in order, and the draw completes. *)
Theorem draw_shape_polyline sm s ps :
  PShape.has_attrib s "point" = false ->
  PShape.geom s = PShape.GPShape (map pair_to_list ps) ->
  Renderer.draw_shape sm s =
    (frame_open sm s ++ polyline ps
     ++ (if PShape.has_attrib s "closed" then [Vg.closePath] else [])
     ++ Vg.restore :: fst (Renderer.paint s), inr tt).
Proof.
  intros Hp Hg; apply (draw_shape_path_ok sm s (polyline ps) tt).
  unfold Renderer.shape_path; rewrite Hg, Hp.
  apply walk_vertices_polyline.
Qed.

Lemma draw_shape_polyline_witness :
  PShape.has_attrib tinted "point" = false /\
  PShape.geom tinted = PShape.GPShape (map pair_to_list [(0, 0); (1, 0); (1, 1)]) /\
  Renderer.draw_shape true tinted =
    (frame_open true tinted ++ polyline [(0, 0); (1, 0); (1, 1)]
     ++ (if PShape.has_attrib tinted "closed" then [Vg.closePath] else [])
     ++ Vg.restore :: fst (Renderer.paint tinted), inr tt).
Proof.
  split; [reflexivity |]; split; [reflexivity |].
  apply draw_shape_polyline; reflexivity.
Defined.

(** X4.  If a vertex of a plain PShape does not have two coordinates, the
    draw raises the unpacking [ValueError] after the commands for the
    vertices before it, and no [restore] follows. *)
Theorem draw_shape_bad_vertex sm s ps v rest :
  PShape.has_attrib s "point" = false ->
  PShape.geom s = PShape.GPShape (map pair_to_list ps ++ v :: rest) ->
  List.length v <> 2%nat ->
  Renderer.draw_shape sm s =
    (frame_open sm s ++ polyline ps, inl (unpack_error 2 (List.length v))).
Proof.
  intros Hp Hg Hv; apply draw_shape_path_err.
  unfold Renderer.shape_path; rewrite Hg, Hp.
  assert (Hu : unpack2 v = raise (unpack_error 2 (List.length v))).
  { destruct v as [| a [| b [| c v]]]; try reflexivity; simpl in Hv; lia. }
  destruct ps as [| p ps]; cbn [map app Renderer.walk_vertices];
    [rewrite Hu; reflexivity |].
  assert (Hw : forall i, Renderer.walk_vertices (S i) (map pair_to_list ps ++ v :: rest)
     = (map (fun q => Vg.lineTo (fst q) (snd q)) ps,
        inl (unpack_error 2 (List.length v)))).
  { clear Hg; induction ps as [| q ps IH]; intros i; cbn [map app Renderer.walk_vertices];
      [rewrite Hu; reflexivity |].
    rewrite IH; reflexivity. }
  rewrite Hw; reflexivity.
Qed.

Lemma draw_shape_bad_vertex_witness :
  let s := PShape.make defaults0
             (PShape.GPShape [[0; 0]; [1; 1]; [2; 2; 2]]) None in
  PShape.has_attrib s "point" = false /\
  PShape.geom s = PShape.GPShape (map pair_to_list [(0, 0); (1, 1)] ++ [[2; 2; 2]]) /\
  List.length [2; 2; 2] <> 2%nat /\
  Renderer.draw_shape true s =
    (frame_open true s ++ polyline [(0, 0); (1, 1)],
     inl (unpack_error 2 (List.length [2; 2; 2]))).
Proof.
  intros s; split; [reflexivity |]; split; [reflexivity |].
  split; [simpl; lia |].
  apply (draw_shape_bad_vertex true s [(0, 0); (1, 1)] [2; 2; 2] []);
    [reflexivity | reflexivity | simpl; lia].
Defined.

(** X5.  [point(x, y, z)] returns the PShape [[(x, y)]] tagged "point"
    and draws the 1x1 rectangle [rect(x, y, 1, 1)] with antialiasing off;
    [z] is not used. *)
Theorem point_draws_unit_rect g x y z :
  let s := PShape.make (Primitives.shape_defaults g) (PShape.GPShape [[x; y]])
             (Some ["point"%string]) in
  Primitives.point g x y z =
    (frame_open (Primitives.smooth g) s
     ++ [Vg.shapeAntiAlias 0; Vg.rect x y 1 1]
     ++ Vg.restore :: fst (Renderer.paint s), inr s).
Proof.
  intros s; apply draw_on_return_ok; [reflexivity |].
  apply (draw_shape_path_ok _ s _ tt); reflexivity.
Qed.

(** X6.  A PShape tagged "point" with no vertex raises [IndexError] in
    the renderer right after the frame, before drawing anything. *)
Theorem draw_shape_point_no_vertex sm s :
  PShape.has_attrib s "point" = true -> PShape.geom s = PShape.GPShape [] ->
  Renderer.draw_shape sm s =
    (frame_open sm s, inl (IndexError "list index out of range")).
Proof.
  intros Hp Hg.
  rewrite (draw_shape_path_err sm s [] (IndexError "list index out of range")).
  - rewrite app_nil_r; reflexivity.
  - unfold Renderer.shape_path; rewrite Hg, Hp; reflexivity.
Qed.

Lemma draw_shape_point_no_vertex_witness :
  let s := PShape.make defaults0 (PShape.GPShape []) (Some ["point"%string]) in
  PShape.has_attrib s "point" = true /\ PShape.geom s = PShape.GPShape [] /\
  Renderer.draw_shape true s =
    (frame_open true s, inl (IndexError "list index out of range")).
Proof.
  intros s; split; [reflexivity |]; split; [reflexivity |].
  apply draw_shape_point_no_vertex; reflexivity.
Defined.

(** X7.  [bezier] with four (x, y) points returns the Bezier shape, tagged
    "path", and draws [moveTo] the start and one [bezierTo] through the
    two control points to the stop. *)
Theorem bezier_draws g sx sy c1x c1y c2x c2y ex ey :
  let s := PShape.make (Primitives.shape_defaults g)
             (PShape.GBezier [sx; sy] [c1x; c1y] [c2x; c2y] [ex; ey])
             (Some ["path"%string]) in
  Primitives.bezier g [sx; sy] [c1x; c1y] [c2x; c2y] [ex; ey] =
    (frame_open (Primitives.smooth g) s
     ++ [Vg.moveTo sx sy; Vg.bezierTo c1x c1y c2x c2y ex ey]
     ++ Vg.restore :: fst (Renderer.paint s), inr s).
Proof.
  intros s; apply draw_on_return_ok; [reflexivity |].
  apply (draw_shape_path_ok _ s _ tt); reflexivity.
Qed.

(** ** [arc] *)

(** X8.  For a two- or three-component [coordinate] (read as the Point
    [c]), [arc] in ellipse mode CORNER, CENTER or RADIUS returns the Arc
    and draws the circular arc on its x-radius: CORNER centers it at
    [c + (w/2, h/2)] with radius [w]; CENTER centers it at [c] with radius
    [w/2]; RADIUS centers it at [c] with radius [w]. *)
Theorem arc_modes_draw g coordinate c w h a0 a1 mode :
  Pmath.Point coordinate = ret c ->
  let mk center radii := PShape.make (Primitives.shape_defaults g)
        (PShape.GArc center radii a0 a1) (Some (Primitives.attribs_of mode)) in
  (exists cmds,
     Primitives.arc g coordinate w h a0 a1 mode (Some "CORNER"%string)
       = (cmds, inr (mk [Pmath.x c + w / 2; Pmath.y c + h / 2; Pmath.z c] [w; h; 0]))
     /\ In (Vg.arc (Pmath.x c + w / 2) (Pmath.y c + h / 2) w a0 a1 2) cmds) /\
  (exists cmds,
     Primitives.arc g coordinate w h a0 a1 mode (Some "CENTER"%string)
       = (cmds, inr (mk (Pmath.seq_of c) [w / 2; h / 2; 0]))
     /\ In (Vg.arc (Pmath.x c) (Pmath.y c) (w / 2) a0 a1 2) cmds) /\
  (exists cmds,
     Primitives.arc g coordinate w h a0 a1 mode (Some "RADIUS"%string)
       = (cmds, inr (mk (Pmath.seq_of c) [w; h; 0]))
     /\ In (Vg.arc (Pmath.x c) (Pmath.y c) w a0 a1 2) cmds).
Proof.
  intros Hp mk.
  assert (Hd : forall cx cy cz rx ry rz,
    exists cmds,
      Primitives.draw_on_return g (mk [cx; cy; cz] [rx; ry; rz]) = (cmds, inr (mk [cx; cy; cz] [rx; ry; rz]))
      /\ In (Vg.arc cx cy rx a0 a1 2) cmds).
  { intros cx cy cz rx ry rz.
    set (s := mk [cx; cy; cz] [rx; ry; rz]).
    set (pie := if PShape.has_attrib s "pie" then [Vg.lineTo cx cy] else []).
    assert (Hs : Renderer.shape_path s = (Vg.arc cx cy rx a0 a1 2 :: pie, inr tt)).
    { unfold Renderer.shape_path, pie; simpl.
      destruct (PShape.has_attrib s "pie"); reflexivity. }
    eexists; split.
    - apply draw_on_return_ok; [reflexivity |].
      apply (draw_shape_path_ok _ _ _ _ Hs).
    - unfold frame_open; simpl; tauto. }
  unfold Primitives.arc, Primitives.arc_geometry, Primitives.resolve_mode;
    simpl String.eqb; cbv iota beta; rewrite Hp, !bind_ret_l; simpl fst; simpl snd.
  destruct c as [cx cy cz]; simpl.
  repeat split; apply Hd.
Qed.

Lemma arc_modes_draw_witness :
  Pmath.Point [1; 1] = ret (Pmath.mkPoint 1 1 0) /\
  exists cmds,
    Primitives.arc g0 [1; 1] 4 2 0 1 "open pie" (Some "CORNER"%string)
      = (cmds, inr (PShape.make (Primitives.shape_defaults g0)
                     (PShape.GArc [1 + 4 / 2; 1 + 2 / 2; 0] [4; 2; 0] 0 1)
                     (Some (Primitives.attribs_of "open pie"))))
    /\ In (Vg.arc (1 + 4 / 2) (1 + 2 / 2) 4 0 1 2) cmds.
Proof.
  split; [reflexivity |].
  apply (arc_modes_draw g0 [1; 1] (Pmath.mkPoint 1 1 0) 4 2 0 1 "open pie");
    reflexivity.
Defined.

(** X9.  [arc] with an ellipse mode other than CORNER, CENTER and RADIUS
    (CORNERS among them) raises [ValueError("Unknown arc mode ...")] and
    draws nothing. *)
Theorem arc_unknown_mode g coordinate w h a0 a1 mode emode :
  ~ In emode ["CORNER"; "CENTER"; "RADIUS"]%string ->
  Primitives.arc g coordinate w h a0 a1 mode (Some emode)
    = ([], inl (ValueError ("Unknown arc mode " ++ emode))).
Proof.
  intros Hm; simpl in Hm.
  unfold Primitives.arc, Primitives.arc_geometry, Primitives.resolve_mode.
  repeat match goal with
  | |- context [String.eqb emode ?k] =>
      replace (String.eqb emode k) with false
        by (symmetry; apply String.eqb_neq; intros ->; tauto)
  end; reflexivity.
Qed.

Lemma arc_unknown_mode_witness :
  Primitives.arc g0 [0; 0] 4 2 0 1 "open" (Some "CORNERS"%string)
    = ([], inl (ValueError ("Unknown arc mode " ++ "CORNERS"))).
Proof.
  apply arc_unknown_mode; simpl;
    intros H; repeat (destruct H as [H | H]; [discriminate |]); exact H.
Defined.

(** ** [rect], [square], [ellipse], [circle] *)

(** X10.  [rect] with a mode other than CORNER, CENTER, RADIUS and
    CORNERS raises [ValueError("Unknown rect mode ...")] and draws
    nothing; mode names are case-sensitive. *)
Theorem rect_unknown_mode g coordinate args mode :
  ~ In mode ["CORNER"; "CENTER"; "RADIUS"; "CORNERS"]%string ->
  Primitives.rect g coordinate args (Some mode)
    = ([], inl (ValueError ("Unknown rect mode " ++ mode))).
Proof.
  intros Hm; simpl in Hm.
  unfold Primitives.rect, Primitives.rect_build, Primitives.resolve_mode.
  repeat match goal with
  | |- context [String.eqb mode ?k] =>
      replace (String.eqb mode k) with false
        by (symmetry; apply String.eqb_neq; intros ->; tauto)
  end; reflexivity.
Qed.

Lemma rect_unknown_mode_witness :
  Primitives.rect g0 [0; 0] [PNum 1; PNum 1] (Some "corner"%string)
    = ([], inl (ValueError ("Unknown rect mode " ++ "corner"))).
Proof.
  apply rect_unknown_mode; simpl;
    intros H; repeat (destruct H as [H | H]; [discriminate |]); exact H.
Defined.

(** X11.  In CORNER mode, [rect((x, y), w, h)] returns the Rect at
    [(x, y)] and draws [rect(x, y, w, h)] with the numbers as given;
    [square((x, y), side)] in CORNER mode draws [rect(x, y, side, side)]. *)
Theorem rect_square_corner_draw g x y w h side :
  let r := PShape.make (Primitives.shape_defaults g) (PShape.GRect [x; y] w h) None in
  let q := PShape.make (Primitives.shape_defaults g)
             (PShape.GRect [x; y] side side) None in
  Primitives.rect g [x; y] [PNum w; PNum h] (Some "CORNER"%string) =
    (frame_open (Primitives.smooth g) r ++ [Vg.rect x y w h]
     ++ (if PShape.has_attrib r "closed" then [Vg.closePath] else [])
     ++ Vg.restore :: fst (Renderer.paint r), inr r) /\
  Primitives.square g [x; y] side (Some "CORNER"%string) =
    (frame_open (Primitives.smooth g) q ++ [Vg.rect x y side side]
     ++ (if PShape.has_attrib q "closed" then [Vg.closePath] else [])
     ++ Vg.restore :: fst (Renderer.paint q), inr q).
Proof.
  intros r q.
  assert (Hr : forall a b, Primitives.rect g [x; y] [PNum a; PNum b] (Some "CORNER"%string)
    = Primitives.draw_on_return g
        (PShape.make (Primitives.shape_defaults g) (PShape.GRect [x; y] a b) None))
    by (intros a b; unfold Primitives.rect;
        change (Primitives.rect_build g [x; y] [PNum a; PNum b] (Some "CORNER"%string))
          with (ret (PShape.make (Primitives.shape_defaults g)
                       (PShape.GRect [x; y] a b) None));
        apply bind_ret_l).
  split; [| change (Primitives.square g [x; y] side (Some "CORNER"%string))
            with (Primitives.rect g [x; y] [PNum side; PNum side] (Some "CORNER"%string))];
    rewrite Hr; (apply draw_on_return_ok; [reflexivity |]);
    apply (draw_shape_path_ok _ _ _ tt); reflexivity.
Qed.

(** X12.  [rect] in CENTER, RADIUS or CORNERS mode never draws: it stores
    the corner as a three-component Point, which the renderer's
    [cx, cy = shape._center] cannot unpack, so the call raises
    [ValueError]. *)
Theorem rect_point_modes_raise g coordinate c w h :
  Pmath.Point coordinate = ret c ->
  snd (Primitives.rect g coordinate [PNum w; PNum h] (Some "CENTER"%string))
    = inl (ValueError "too many values to unpack") /\
  snd (Primitives.rect g coordinate [PNum w; PNum h] (Some "RADIUS"%string))
    = inl (ValueError "too many values to unpack") /\
  (forall q c2, Pmath.Point q = ret c2 ->
     snd (Primitives.rect g coordinate [PSeq q] (Some "CORNERS"%string))
       = inl (ValueError "too many values to unpack")).
Proof.
  intros Hp; split; [| split].
  1, 2: unfold Primitives.rect, Primitives.rect_build, Primitives.resolve_mode;
    simpl String.eqb; cbv iota beta; rewrite Hp, bind_ret_l; reflexivity.
  intros q c2 Hq; apply (rect_corners_unpack_error g coordinate q c c2 Hp Hq).
Qed.

Lemma rect_point_modes_raise_witness :
  Pmath.Point [5; 5] = ret (Pmath.mkPoint 5 5 0) /\
  snd (Primitives.rect g0 [5; 5] [PNum 2; PNum 2] (Some "CENTER"%string))
    = inl (ValueError "too many values to unpack") /\
  snd (Primitives.rect g0 [5; 5] [PNum 2; PNum 2] (Some "RADIUS"%string))
    = inl (ValueError "too many values to unpack") /\
  (forall q c2, Pmath.Point q = ret c2 ->
     snd (Primitives.rect g0 [5; 5] [PSeq q] (Some "CORNERS"%string))
       = inl (ValueError "too many values to unpack")).
Proof.
  split; [reflexivity |].
  apply (rect_point_modes_raise g0 [5; 5] (Pmath.mkPoint 5 5 0) 2 2); reflexivity.
Defined.

Lemma ellipse_draw_2 g x y w h :
  let s := PShape.make (Primitives.shape_defaults g) (PShape.GEllipse [x; y] w h) None in
  Primitives.draw_on_return g s =
    (frame_open (Primitives.smooth g) s ++ [Vg.ellipse x y (w / 2) (h / 2)]
     ++ (if PShape.has_attrib s "closed" then [Vg.closePath] else [])
     ++ Vg.restore :: fst (Renderer.paint s), inr s).
Proof.
  intros s; apply draw_on_return_ok; [reflexivity |].
  apply (draw_shape_path_ok _ _ _ tt); reflexivity.
Qed.

(** X13.  For a center [(x, y)] and numbers [w], [h], [ellipse] draws the
    same [ellipse(x, y, w/2, h/2)] in CORNER, CENTER and RADIUS mode (the
    mode changes nothing), and [circle((x, y), r)] in those modes draws
    [ellipse(x, y, r/2, r/2)]: its radius is used as the diameter. *)
Theorem ellipse_circle_mode_independent g x y w h r m :
  In m ["CORNER"; "CENTER"; "RADIUS"]%string ->
  let e := PShape.make (Primitives.shape_defaults g) (PShape.GEllipse [x; y] w h) None in
  let c := PShape.make (Primitives.shape_defaults g) (PShape.GEllipse [x; y] r r) None in
  Primitives.ellipse g [x; y] [PNum w; PNum h] (Some m) =
    (frame_open (Primitives.smooth g) e ++ [Vg.ellipse x y (w / 2) (h / 2)]
     ++ (if PShape.has_attrib e "closed" then [Vg.closePath] else [])
     ++ Vg.restore :: fst (Renderer.paint e), inr e) /\
  Primitives.circle g [x; y] r (Some m) =
    (frame_open (Primitives.smooth g) c ++ [Vg.ellipse x y (r / 2) (r / 2)]
     ++ (if PShape.has_attrib c "closed" then [Vg.closePath] else [])
     ++ Vg.restore :: fst (Renderer.paint c), inr c).
Proof.
  intros Hm e c.
  assert (He : forall a b,
    Primitives.ellipse g [x; y] [PNum a; PNum b] (Some m)
      = Primitives.draw_on_return g
          (PShape.make (Primitives.shape_defaults g) (PShape.GEllipse [x; y] a b) None)).
  { intros a b; unfold Primitives.ellipse.
    replace (Primitives.ellipse_build g [x; y] [PNum a; PNum b] (Some m))
      with (ret (PShape.make (Primitives.shape_defaults g)
                   (PShape.GEllipse [x; y] a b) None))
      by (simpl in Hm; destruct Hm as [<- | [<- | [<- | []]]]; reflexivity).
    apply bind_ret_l. }
  assert (Hc : Primitives.circle g [x; y] r (Some m)
                 = Primitives.ellipse g [x; y] [PNum r; PNum r] (Some m)).
  { simpl in Hm; destruct Hm as [<- | [<- | [<- | []]]]; reflexivity. }
  rewrite Hc, !He; split; apply ellipse_draw_2.
Qed.

Lemma ellipse_circle_mode_independent_witness :
  let e := PShape.make defaults0 (PShape.GEllipse [1; 2] 6 4) None in
  let c := PShape.make defaults0 (PShape.GEllipse [1; 2] 3 3) None in
  In "CORNER"%string ["CORNER"; "CENTER"; "RADIUS"]%string /\
  Primitives.ellipse g0 [1; 2] [PNum 6; PNum 4] (Some "CORNER"%string) =
    (frame_open true e ++ [Vg.ellipse 1 2 (6 / 2) (4 / 2)]
     ++ (if PShape.has_attrib e "closed" then [Vg.closePath] else [])
     ++ Vg.restore :: fst (Renderer.paint e), inr e) /\
  Primitives.circle g0 [1; 2] 3 (Some "CORNER"%string) =
    (frame_open true c ++ [Vg.ellipse 1 2 (3 / 2) (3 / 2)]
     ++ (if PShape.has_attrib c "closed" then [Vg.closePath] else [])
     ++ Vg.restore :: fst (Renderer.paint c), inr c).
Proof.
  intros e c; split; [simpl; auto |].
  apply (ellipse_circle_mode_independent g0 1 2 6 4 3 "CORNER"); simpl; auto.
Defined.

(** X14.  [ellipse] and [circle] with a three-component coordinate, in
    CORNER, CENTER or RADIUS mode, build the shape but raise [ValueError]
    in the renderer's [cx, cy = shape._center]. *)
Theorem ellipse_circle_3d_raise g a b c w h r m :
  In m ["CORNER"; "CENTER"; "RADIUS"]%string ->
  snd (Primitives.ellipse g [a; b; c] [PNum w; PNum h] (Some m))
    = inl (ValueError "too many values to unpack") /\
  snd (Primitives.circle g [a; b; c] r (Some m))
    = inl (ValueError "too many values to unpack").
Proof.
  intros Hm; simpl in Hm; destruct Hm as [<- | [<- | [<- | []]]];
    split; reflexivity.
Qed.

Lemma ellipse_circle_3d_raise_witness :
  In "CENTER"%string ["CORNER"; "CENTER"; "RADIUS"]%string /\
  snd (Primitives.ellipse g0 [0; 0; 1] [PNum 2; PNum 2] (Some "CENTER"%string))
    = inl (ValueError "too many values to unpack") /\
  snd (Primitives.circle g0 [0; 0; 1] 2 (Some "CENTER"%string))
    = inl (ValueError "too many values to unpack").
Proof.
  split; [simpl; auto |].
  apply (ellipse_circle_3d_raise g0 0 0 1 2 2 2 "CENTER"); simpl; auto.
Defined.

(** ** The primitives' [draw_shape] *)

(** X15.  The primitives' [draw_shape] of a shape with no children is the
    renderer's [draw_shape]; for a shape with at least one child that the
    renderer draws, it raises [NameError] right after the shape's own
    commands, so no child is ever drawn. *)
Theorem primitives_draw_shape_children sm s cmds :
  (PShape.children s = [] ->
   Primitives.draw_shape sm s = Renderer.draw_shape sm s) /\
  (PShape.children s <> [] ->
   Renderer.draw_shape sm s = (cmds, inr tt) ->
   Primitives.draw_shape sm s
     = (cmds, inl (NameError "name 'children' is not defined"))).
Proof.
  split.
  - intros Hc; unfold Primitives.draw_shape, render; rewrite Hc.
    destruct (Renderer.draw_shape sm s) as [l [e | []]]; simpl;
      rewrite ?app_nil_r; reflexivity.
  - intros Hc Hd; unfold Primitives.draw_shape, render; rewrite Hd.
    destruct (PShape.children s) as [| c cs]; [congruence |].
    simpl; rewrite app_nil_r; reflexivity.
Qed.

Lemma primitives_draw_shape_children_witness :
  exists cmds,
  (PShape.children leaf = [] ->
   Primitives.draw_shape true leaf = Renderer.draw_shape true leaf) /\
  (PShape.children parent <> [] ->
   Renderer.draw_shape true parent = (cmds, inr tt) ->
   Primitives.draw_shape true parent
     = (cmds, inl (NameError "name 'children' is not defined"))) /\
  PShape.children leaf = [] /\ PShape.children parent <> [] /\
  Renderer.draw_shape true parent = (cmds, inr tt).
Proof.
  eexists; split; [apply (primitives_draw_shape_children true leaf []) |].
  split; [apply (primitives_draw_shape_children true parent) |].
  split; [reflexivity |]; split; [discriminate | reflexivity].
Defined.

(** ** Stroke cap and join *)

(** X16.  For an accepted cap [x] and join [y], [stroke_cap(x)] then
    [stroke_join(y)] both succeed, leave the cap [x] and the join [y], in
    the same globals as the other order; setting back the old cap and join
    restores the globals exactly, so nothing else was changed. *)
Theorem stroke_cap_join_set st x y :
  In x ["BUTT"; "ROUND"; "SQUARE"]%string ->
  In y ["MITER"; "ROUND"; "SQUARE"]%string ->
  let st1 := snd (Attribs.stroke_cap x st) in
  let st2 := snd (Attribs.stroke_join y st1) in
  fst (Attribs.stroke_cap x st) = inr tt /\
  fst (Attribs.stroke_join y st1) = inr tt /\
  Renderer.stroke_cap st2 = x /\ Renderer.stroke_join st2 = y /\
  st2 = snd (Attribs.stroke_cap x (snd (Attribs.stroke_join y st))) /\
  Attribs.set_stroke_cap (Renderer.stroke_cap st)
    (Attribs.set_stroke_join (Renderer.stroke_join st) st2) = st.
Proof.
  intros Hx Hy; simpl in Hx, Hy; destruct st.
  destruct Hx as [<- | [<- | [<- | []]]];
    destruct Hy as [<- | [<- | [<- | []]]]; repeat split.
Qed.

Lemma stroke_cap_join_set_witness :
  let st1 := snd (Attribs.stroke_cap "ROUND" st0) in
  let st2 := snd (Attribs.stroke_join "SQUARE" st1) in
  fst (Attribs.stroke_cap "ROUND" st0) = inr tt /\
  fst (Attribs.stroke_join "SQUARE" st1) = inr tt /\
  Renderer.stroke_cap st2 = "ROUND"%string /\
  Renderer.stroke_join st2 = "SQUARE"%string /\
  st2 = snd (Attribs.stroke_cap "ROUND" (snd (Attribs.stroke_join "SQUARE" st0))) /\
  Attribs.set_stroke_cap (Renderer.stroke_cap st0)
    (Attribs.set_stroke_join (Renderer.stroke_join st0) st2) = st0.
Proof.
  apply stroke_cap_join_set; simpl; auto.
Defined.

(** ** [curve] *)

(** X17.  With a curve resolution of 0, [curve] raises
    [ZeroDivisionError] at [t = i / steps], before any shape is built or
    drawn. *)
Theorem curve_zero_resolution g p1 p2 p3 p4 :
  Primitives.curve_resolution g = 0%nat ->
  Primitives.curve g p1 p2 p3 p4 = ([], inl (ZeroDivisionError "division by zero")).
Proof.
  intros H; unfold Primitives.curve; rewrite H; reflexivity.
Qed.

Lemma curve_zero_resolution_witness :
  Primitives.curve (Primitives.mkGlobals "CORNER" "CENTER" 0 true defaults0)
    [0; 0] [1; 0] [2; 1] [3; 3]
    = ([], inl (ZeroDivisionError "division by zero")).
Proof. apply curve_zero_resolution; reflexivity. Defined.

Lemma steps_nonzero (steps : nat) :
  steps <> 0%nat -> Qeq_bool (inject_Z (Z.of_nat steps)) 0 = false.
Proof.
  intros H; destruct (Qeq_bool _ _) eqn:E; [| reflexivity].
  apply Qeq_bool_iff in E; unfold Qeq in E; simpl in E; lia.
Qed.

Lemma curve_samples_xy steps is p1 p2 p3 p4 :
  steps <> 0%nat ->
  Primitives.curve_samples steps is (pair_to_list p1) (pair_to_list p2)
    (pair_to_list p3) (pair_to_list p4)
  = ret (map pair_to_list
           (map (fun i => curve_xy p1 p2 p3 p4
                   (inject_Z (Z.of_nat i) / inject_Z (Z.of_nat steps))) is)).
Proof.
  intros Hs; induction is as [| i is IH]; [reflexivity |].
  cbn [Primitives.curve_samples]; unfold py_div; rewrite (steps_nonzero _ Hs).
  rewrite bind_ret_l; simpl Primitives.curve_point; rewrite IH; reflexivity.
Qed.

(** X18.  With a positive curve resolution [steps] and four (x, y)
    points, [curve] never raises: it returns the "path" PShape of the
    [steps + 1] Catmull-Rom points at [t = i / steps] and draws them as a
    polyline ([moveTo], then [lineTo] each), without [closePath]. *)
Theorem curve_xy_draws g p1 p2 p3 p4 :
  Primitives.curve_resolution g <> 0%nat ->
  let steps := Primitives.curve_resolution g in
  let ps := map (fun i => curve_xy p1 p2 p3 p4
                   (inject_Z (Z.of_nat i) / inject_Z (Z.of_nat steps)))
              (seq 0 (S steps)) in
  let s := PShape.make (Primitives.shape_defaults g)
             (PShape.GPShape (map pair_to_list ps)) (Some ["path"%string]) in
  Primitives.curve g (pair_to_list p1) (pair_to_list p2) (pair_to_list p3)
    (pair_to_list p4) =
    (frame_open (Primitives.smooth g) s ++ polyline ps
     ++ Vg.restore :: fst (Renderer.paint s), inr s).
Proof.
  intros Hs steps ps s.
  unfold Primitives.curve; rewrite (curve_samples_xy _ _ _ _ _ _ Hs), bind_ret_l.
  apply draw_on_return_ok; [reflexivity |].
  assert (Hp : Renderer.shape_path s = (polyline ps, inr tt)).
  { unfold Renderer.shape_path.
    change (PShape.geom s) with (PShape.GPShape (map pair_to_list ps)).
    change (PShape.has_attrib s "point") with false.
    apply walk_vertices_polyline. }
  rewrite (draw_shape_path_ok _ _ _ _ Hp); reflexivity.
Qed.

Lemma curve_xy_draws_witness :
  let steps := Primitives.curve_resolution g2 in
  let ps := map (fun i => curve_xy (0, 0) (1, 0) (2, 1) (3, 3)
                   (inject_Z (Z.of_nat i) / inject_Z (Z.of_nat steps)))
              (seq 0 (S steps)) in
  let s := PShape.make (Primitives.shape_defaults g2)
             (PShape.GPShape (map pair_to_list ps)) (Some ["path"%string]) in
  Primitives.curve_resolution g2 <> 0%nat /\
  Primitives.curve g2 [0; 0] [1; 0] [2; 1] [3; 3] =
    (frame_open (Primitives.smooth g2) s ++ polyline ps
     ++ Vg.restore :: fst (Renderer.paint s), inr s).
Proof.
  split; [discriminate |].
  apply (curve_xy_draws g2 (0, 0) (1, 0) (2, 1) (3, 3)); discriminate.
Defined.
